(** * check_aws_budgets.py: a shallow embedding of the Icinga/Nagios plug-in

    The Python script reads budget dictionaries returned by the AWS Budgets
    API, sorts them into an "overspent" and a "within limit" bucket
    ([get_overspend]), renders performance data ([get_perfdata]) and prints
    one plug-in line before calling [sys.exit] ([main]).

    Modelling choices:
    - a budget is the nested dict of boto3; every key lookup is an [option]
      whose absence raises [KeyError];
    - the script's effects (printing, exceptions, [sys.exit]) live in a small
      output-and-exception monad [M];
    - a Python float is an IEEE binary64 value; [float(s)] rounds the
      decimal numeral correctly (ties to even), as CPython's strtod does;
    - the calls into boto3 (STS identity, describe_budget, the paginated
      describe_budgets) are the provider, an input of the model: each returns
      the budget data or raises a botocore exception. *)

From Stdlib Require Import ZArith QArith String Ascii List Bool Lia.
From Stdlib Require Import Numbers.DecimalString.
Import ListNotations.
Open Scope string_scope.

(** ** Python values and exceptions *)

(** The exceptions the script can raise or meet. *)
Inductive exn : Type :=
| KeyError
| ValueError
| BotoCoreError (msg : string)
| ClientError (msg : string)
| SystemExit (code : Z).

(** Computations that print lines and may raise: the printed lines so far
    are threaded through. *)
Definition M (A : Type) : Type := list string -> list string * (exn + A).

Definition ret {A} (a : A) : M A := fun out => (out, inr a).
Definition raise {A} (e : exn) : M A := fun out => (out, inl e).
Definition bind {A B} (m : M A) (k : A -> M B) : M B :=
  fun out => match m out with
             | (out', inl e) => (out', inl e)
             | (out', inr a) => k a out'
             end.

Notation "x <- m ;; k" := (bind m (fun x => k))
  (at level 61, m at next level, right associativity).

(** [print(s)] *)
Definition print (s : string) : M unit := fun out => ((out ++ [s])%list, inr tt).

(** [sys.exit(code)] raises [SystemExit]. *)
Definition sys_exit {A} (code : Z) : M A := raise (SystemExit code).

(** [try: body except <handled>: handler]: the handler chooses which
    exceptions it catches by returning [Some]. *)
Definition try_except {A} (body : M A) (handler : exn -> option (M A)) : M A :=
  fun out => match body out with
             | (out', inl e) =>
                 match handler e with
                 | Some h => h out'
                 | None => (out', inl e)
                 end
             | r => r
             end.

(** [d[key]]: a missing key raises [KeyError]. *)
Definition getk {A} (v : option A) : M A :=
  match v with Some a => ret a | None => raise KeyError end.

Definition STATE_OK : Z := 0.
Definition STATE_WARN : Z := 1.
Definition STATE_CRIT : Z := 2.
Definition STATE_UNKNOWN : Z := 3.

(** ** Budget dictionaries, as boto3 returns them *)

(** [{'Amount': ..., 'Unit': ...}] *)
Record Spend : Type := mkSpend {
  Amount : option string;
  Unit : option string
}.

(** [{'ActualSpend': ..., 'ForecastedSpend': ...}] *)
Record CalculatedSpendT : Type := mkCalc {
  ActualSpend : option Spend;
  ForecastedSpend : option Spend
}.

(** A budget dict, restricted to the keys the script reads. *)
Record Budget : Type := mkBudget {
  BudgetName : option string;
  BudgetLimit : option Spend;
  CalculatedSpend : option CalculatedSpendT
}.

(** ** Python floats: [float(s)], [x > y], [x == y] and [f"{x:.2f}"] *)

(** A binary64 value. A finite double is [(-1)^neg * units * 2^-1074]:
    every double is an integer multiple of the least subnormal [2^-1074],
    and a finite one has [units < 2^2098]. *)
Inductive pyfloat : Type :=
| PFloat (neg : bool) (units : Z)
| PInf (neg : bool)
| PNaN.

Definition is_digit (c : ascii) : bool :=
  let n := nat_of_ascii c in (48 <=? n)%nat && (n <=? 57)%nat.

Definition digit_val (c : ascii) : Z := Z.of_nat (nat_of_ascii c - 48).

(** [Py_ISSPACE]: the ASCII whitespace [float()] strips at both ends. *)
Definition py_isspace (c : ascii) : bool :=
  let n := nat_of_ascii c in (n =? 32)%nat || ((9 <=? n)%nat && (n <=? 13)%nat).

Fixpoint lstrip (cs : list ascii) : list ascii :=
  match cs with
  | c :: cs' => if py_isspace c then lstrip cs' else cs
  | [] => []
  end.

Definition strip (cs : list ascii) : list ascii := rev (lstrip (rev (lstrip cs))).

(** [_Py_string_to_number_with_underscores]: an underscore is accepted only
    between two digits, and the underscores are dropped. *)
Fixpoint drop_underscores (prev : ascii) (cs : list ascii) : option (list ascii) :=
  match cs with
  | [] => if Ascii.eqb prev "_" then None else Some []
  | c :: cs' =>
      if Ascii.eqb c "_" then
        if is_digit prev then drop_underscores c cs' else None
      else if Ascii.eqb prev "_" && negb (is_digit c) then None
      else option_map (cons c) (drop_underscores c cs')
  end.

(** The significand read by [_Py_dg_strtod]: digits with at most one point
    and at least one digit. Returns the digits as an integer, the number of
    fraction digits and the unread rest. *)
Fixpoint scan_mantissa (cs : list ascii) (dot : bool) (m sc : Z) (nd : nat)
  : option (Z * Z * list ascii) :=
  match cs with
  | c :: cs' =>
      if is_digit c then
        scan_mantissa cs' dot (m * 10 + digit_val c)%Z (if dot then sc + 1 else sc)%Z (S nd)
      else if Ascii.eqb c "." && negb dot then scan_mantissa cs' true m sc nd
      else if (0 <? nd)%nat then Some (m, sc, cs) else None
  | [] => if (0 <? nd)%nat then Some (m, sc, []) else None
  end.

Fixpoint scan_digits (cs : list ascii) (acc : Z) (nd : nat) : option Z :=
  match cs with
  | [] => if (0 <? nd)%nat then Some acc else None
  | c :: cs' => if is_digit c then scan_digits cs' (acc * 10 + digit_val c)%Z (S nd) else None
  end.

(** The optional exponent [e|E [+|-] digits], which must end the string. *)
Definition scan_exponent (cs : list ascii) : option Z :=
  match cs with
  | [] => Some 0%Z
  | c :: cs' =>
      if Ascii.eqb c "e" || Ascii.eqb c "E" then
        match cs' with
        | s :: ds =>
            if Ascii.eqb s "-" then option_map Z.opp (scan_digits ds 0 0)
            else if Ascii.eqb s "+" then scan_digits ds 0 0
            else scan_digits cs' 0 0
        | [] => None
        end
      else None
  end.

Definition round_half_even (num den : Z) : Z :=
  let q := (num / den)%Z in
  let r := (num mod den)%Z in
  if (den <? 2 * r)%Z then (q + 1)%Z
  else if (2 * r =? den)%Z then (if Z.odd q then q + 1 else q)%Z
  else q.

(** [floor(log2(n / d))] for [n, d > 0]. *)
Definition floor_log2_ratio (n d : Z) : Z :=
  let k := (Z.log2 n - Z.log2 d)%Z in
  let reached := if (0 <=? k)%Z then (d * 2 ^ k <=? n)%Z else (d <=? n * 2 ^ (- k))%Z in
  if reached then k else (k - 1)%Z.

(** [n / d] (with [n, d > 0]) rounded to 53 significant bits, ties to even,
    in units of [2^-1074]; below [2^-1022] the step stays [2^-1074]
    (subnormals). *)
Definition round_units (n d : Z) : Z :=
  let e := Z.max (floor_log2_ratio n d - 52) (-1074) in
  let q := if (0 <=? e)%Z then round_half_even n (d * 2 ^ e)
           else round_half_even (n * 2 ^ (- e)) d in
  (q * 2 ^ (e + 1074))%Z.

(** The double nearest to [(-1)^neg * n / d] ([n >= 0], [d > 0]); a value that
    rounds to [2^1024] or beyond overflows to infinity. *)
Definition float_of_ratio (neg : bool) (n d : Z) : pyfloat :=
  if (n =? 0)%Z then PFloat neg 0
  else let u := round_units n d in
       if (2 ^ 2098 <=? u)%Z then PInf neg else PFloat neg u.

Definition lower (c : ascii) : ascii :=
  let n := nat_of_ascii c in
  if (65 <=? n)%nat && (n <=? 90)%nat then ascii_of_nat (n + 32) else c.

(** After the sign: a decimal numeral ([_Py_dg_strtod], correctly rounded),
    or else [inf], [infinity] or [nan] in any case ([_Py_parse_inf_or_nan]). *)
Definition parse_unsigned (neg : bool) (cs : list ascii) : option pyfloat :=
  match scan_mantissa cs false 0 0 0 with
  | Some (m, sc, rest) =>
      match scan_exponent rest with
      | Some ex =>
          let k := (ex - sc)%Z in
          Some (if (0 <=? k)%Z then float_of_ratio neg (m * 10 ^ k) 1
                else float_of_ratio neg m (10 ^ (- k)))
      | None => None
      end
  | None =>
      let w := string_of_list_ascii (map lower cs) in
      if String.eqb w "inf" || String.eqb w "infinity" then Some (PInf neg)
      else if String.eqb w "nan" then Some PNaN
      else None
  end.

(** [float(s)] ([PyFloat_FromString]) for a string of ASCII characters:
    underscores checked and dropped, whitespace stripped, then an optional
    sign and the number. Python also maps non-ASCII Unicode digits and
    spaces to ASCII first; such strings are outside this model (every
    non-ASCII byte is rejected here). *)
Definition parse_float (s : string) : option pyfloat :=
  match drop_underscores (ascii_of_nat 0) (list_ascii_of_string s) with
  | None => None
  | Some cs =>
      match strip cs with
      | c :: cs' =>
          if Ascii.eqb c "-" then parse_unsigned true cs'
          else if Ascii.eqb c "+" then parse_unsigned false cs'
          else parse_unsigned false (c :: cs')
      | [] => None
      end
  end.

(** [float(s)]: a string it does not accept raises [ValueError]. *)
Definition py_float (s : string) : M pyfloat :=
  match parse_float s with Some x => ret x | None => raise ValueError end.

Definition signed_units (neg : bool) (u : Z) : Z := if neg then (- u)%Z else u.

(** Python's [x > y] on floats; false as soon as a NaN is involved. *)
Definition float_gtb (x y : pyfloat) : bool :=
  match x, y with
  | PNaN, _ | _, PNaN => false
  | PInf nx, PInf ny => negb nx && ny
  | PInf nx, PFloat _ _ => negb nx
  | PFloat _ _, PInf ny => ny
  | PFloat nx ux, PFloat ny uy => (signed_units ny uy <? signed_units nx ux)%Z
  end.

(** Python's [x == y] on floats ([-0.0 == 0.0]; a NaN equals nothing). *)
Definition float_eqb (x y : pyfloat) : bool :=
  match x, y with
  | PNaN, _ | _, PNaN => false
  | PInf nx, PInf ny => Bool.eqb nx ny
  | PFloat nx ux, PFloat ny uy => (signed_units nx ux =? signed_units ny uy)%Z
  | _, _ => false
  end.

Definition Z_to_string (z : Z) : string := NilEmpty.string_of_int (Z.to_int z).

(** [f"{x:.2f}"]: the exact binary value rounded to hundredths, ties to even
    (the correctly rounded [_Py_dg_dtoa], mode 3); [inf], [-inf], [nan]. *)
Definition fmt2 (x : pyfloat) : string :=
  match x with
  | PNaN => "nan"
  | PInf neg => (if neg then "-" else "") ++ "inf"
  | PFloat neg u =>
      let q := round_half_even (u * 100) (2 ^ 1074) in
      let cents := (q mod 100)%Z in
      (if neg then "-" else "") ++ Z_to_string (q / 100) ++ "."
        ++ (if (cents <? 10)%Z then "0" else "") ++ Z_to_string cents
  end.

(** ** [get_overspend] (lines 58-77) *)

(** The dict [res = {True: [], False: []}]. *)
Record Buckets : Type := mkBuckets { bucket_true : list string; bucket_false : list string }.

Definition empty_buckets : Buckets := mkBuckets [] [].

(** [res[flag].append(s)] *)
Definition append_bucket (flag : bool) (s : string) (res : Buckets) : Buckets :=
  if flag then mkBuckets (bucket_true res ++ [s])%list (bucket_false res)
  else mkBuckets (bucket_true res) (bucket_false res ++ [s])%list.

(** Line 76 is a plain string literal (no [f] prefix): its text as written. *)
Definition act_literal : string := "{name}(act:{actual:.2f};limit:{limit:.2f})".

(** The body of the [for budget in budgets] loop, lines 69-76. *)
Definition overspend_body (budget : Budget) (res : Buckets) : M Buckets :=
  name <- getk (BudgetName budget) ;;
  lim <- getk (BudgetLimit budget) ;;
  lim_amount <- getk (Amount lim) ;;
  limit <- py_float lim_amount ;;
  try_except
    (cs <- getk (CalculatedSpend budget) ;;
     fs <- getk (ForecastedSpend cs) ;;
     fa <- getk (Amount fs) ;;
     forecast <- py_float fa ;;
     ret (append_bucket (float_gtb forecast limit)
            (name ++ "(fcst:" ++ fmt2 forecast ++ ";limit:" ++ fmt2 limit ++ ")") res))
    (fun e => match e with
              | KeyError => Some
                  (cs <- getk (CalculatedSpend budget) ;;
                   acs <- getk (ActualSpend cs) ;;
                   aa <- getk (Amount acs) ;;
                   actual <- py_float aa ;;
                   ret (append_bucket (float_gtb actual limit) act_literal res))
              | _ => None
              end).

Fixpoint overspend_loop (budgets : list Budget) (res : Buckets) : M Buckets :=
  match budgets with
  | [] => ret res
  | b :: bs => res' <- overspend_body b res ;; overspend_loop bs res'
  end.

Definition get_overspend (budgets : list Budget) : M Buckets :=
  overspend_loop budgets empty_buckets.

(** ** [get_perfdata] (lines 80-93) *)

Fixpoint perfdata_loop (budgets : list Budget) (perfdata : list string) : M (list string) :=
  match budgets with
  | [] => ret perfdata
  | budget :: bs =>
      label <- getk (BudgetName budget) ;;
      cs <- getk (CalculatedSpend budget) ;;
      acs <- getk (ActualSpend cs) ;;
      value <- getk (Amount acs) ;;
      cs' <- getk (CalculatedSpend budget) ;;
      acs' <- getk (ActualSpend cs') ;;
      uom <- getk (Unit acs') ;;
      lim <- getk (BudgetLimit budget) ;;
      limit <- getk (Amount lim) ;;
      perfdata_loop bs
        (app perfdata ["'" ++ label ++ "'=" ++ value ++ uom ++ ";" ++ limit ++ ";" ++ limit])
  end.

Definition get_perfdata (budgets : list Budget) : M string :=
  perfdata <- perfdata_loop budgets [] ;;
  ret ("| " ++ String.concat " " perfdata).

(** ** Fetching (lines 23-55) *)

(** What the boto3 calls of the two [try] blocks deliver: the budget dict of
    [describe_budget], or the concatenated pages of [describe_budgets]; or the
    botocore exception one of the calls raised. *)
Record Provider : Type := mkProvider {
  describe_budget : string -> exn + Budget;
  describe_budgets : exn + list Budget
}.

Definition lift {A} (r : exn + A) : M A :=
  match r with inl e => raise e | inr a => ret a end.

Definition fetch_budget (p : Provider) (name : string) : M Budget :=
  try_except (lift (describe_budget p name))
    (fun e => match e with
              | BotoCoreError err | ClientError err =>
                  Some (_ <- print ("UNKNOWN - " ++ err) ;; sys_exit STATE_UNKNOWN)
              | _ => None
              end).

Definition fetch_budgets (p : Provider) : M (list Budget) :=
  try_except (lift (describe_budgets p))
    (fun e => match e with
              | BotoCoreError err =>
                  Some (_ <- print ("UNKNOWN - " ++ err) ;; sys_exit STATE_UNKNOWN)
              | _ => None
              end).

(** ** [main] (lines 96-116) *)

(** [if args.budget:] -- [None] or the empty string are false. *)
Definition truthy (arg : option string) : option string :=
  match arg with Some "" | None => None | Some s => Some s end.

(** Lines 108-116, once [budgets] is fetched. *)
Definition report (budgets : list Budget) : M unit :=
  overspend <- get_overspend budgets ;;
  perfadata <- get_perfdata budgets ;;
  match bucket_true overspend with
  | _ :: _ =>
      _ <- print ("Budget forecast exceeds limit: "
                  ++ String.concat ", " (bucket_true overspend) ++ perfadata) ;;
      sys_exit STATE_CRIT
  | [] =>
      _ <- print ("Budgets forecast within limit: "
                  ++ String.concat ", " (bucket_false overspend) ++ perfadata) ;;
      sys_exit STATE_OK
  end.

Definition main (arg_budget : option string) (p : Provider) : M unit :=
  budgets <- match truthy arg_budget with
             | Some n => b <- fetch_budget p n ;; ret [b]
             | None => fetch_budgets p
             end ;;
  report budgets.

(** How the process ends: [sys.exit(code)], or an uncaught exception with
    its traceback. *)
Inductive Outcome : Type :=
| Exited (out : list string) (code : Z)
| Uncaught (out : list string) (e : exn).

Definition run_outcome (m : M unit) : Outcome :=
  match m [] with
  | (out, inl (SystemExit c)) => Exited out c
  | (out, inl e) => Uncaught out e
  | (out, inr _) => Exited out 0
  end.

Definition run (arg_budget : option string) (p : Provider) : Outcome :=
  run_outcome (main arg_budget p).

(** The interpreter exits with status 1 after an uncaught exception. *)
Definition exit_status (o : Outcome) : Z :=
  match o with Exited _ c => c | Uncaught _ _ => 1 end.

(** ** Reading a budget record, as the spec describes it *)

Definition opt_bind {A B} (o : option A) (f : A -> option B) : option B :=
  match o with Some a => f a | None => None end.

(** The raw strings of the record, when present. *)
Definition limit_str (b : Budget) : option string :=
  opt_bind (BudgetLimit b) Amount.
Definition actual_str (b : Budget) : option string :=
  opt_bind (CalculatedSpend b) (fun cs => opt_bind (ActualSpend cs) Amount).
Definition actual_unit (b : Budget) : option string :=
  opt_bind (CalculatedSpend b) (fun cs => opt_bind (ActualSpend cs) Unit).
Definition forecast_str (b : Budget) : option string :=
  opt_bind (CalculatedSpend b) (fun cs => opt_bind (ForecastedSpend cs) Amount).

Definition limit_of (b : Budget) : option pyfloat := opt_bind (limit_str b) parse_float.
Definition actual_of (b : Budget) : option pyfloat := opt_bind (actual_str b) parse_float.

(** A well-formed record: a name, a numeric limit, a numeric actual spend with
    its unit, and a numeric forecast whenever a forecast is present. *)
Definition wf_budget (b : Budget) : bool :=
  match BudgetName b, limit_of b, actual_of b, actual_unit b with
  | Some _, Some _, Some _, Some _ =>
      match forecast_str b with
      | Some s => match parse_float s with Some _ => true | None => false end
      | None => true
      end
  | _, _, _, _ => false
  end.

(** A record missing one of the required fields: the limit amount, or the
    actual spend (its amount or its unit). *)
Definition missing_required (b : Budget) : bool :=
  match limit_str b, actual_str b, actual_unit b with
  | Some _, Some _, Some _ => false
  | _, _, _ => true
  end.

Inductive Basis : Type := FORECAST | ACTUAL.

(** Forecast-first: the forecast when present, the actual spend otherwise. *)
Definition comparison_basis (b : Budget) : Basis :=
  match forecast_str b with Some _ => FORECAST | None => ACTUAL end.

Definition comparison_amount (b : Budget) : option pyfloat :=
  match forecast_str b with Some s => parse_float s | None => actual_of b end.

(** [overspent = comparisonAmount > limit] *)
Definition overspent_spec (b : Budget) : bool :=
  match comparison_amount b, limit_of b with
  | Some c, Some l => float_gtb c l
  | _, _ => false
  end.

(** The descriptor the loop body appends for a record. *)
Definition descriptor (b : Budget) : string :=
  match BudgetName b, forecast_str b, limit_of b with
  | Some name, Some s, Some limit =>
      match parse_float s with
      | Some forecast =>
          name ++ "(fcst:" ++ fmt2 forecast ++ ";limit:" ++ fmt2 limit ++ ")"
      | None => act_literal
      end
  | _, _, _ => act_literal
  end.

(** The metric-token convention [name=value unit;warn;crit], the name quoted. *)
Definition metric_token (name value unit limit : string) : string :=
  "'" ++ name ++ "'=" ++ value ++ unit ++ ";" ++ limit ++ ";" ++ limit.

Definition default_str (o : option string) : string :=
  match o with Some s => s | None => "" end.

(** The token of a record: actual spend and its unit, the limit twice. *)
Definition record_token (b : Budget) : string :=
  metric_token (default_str (BudgetName b)) (default_str (actual_str b))
    (default_str (actual_unit b)) (default_str (limit_str b)).

Inductive Severity : Type := OK | WARNING | CRITICAL | UNKNOWN.

(** The plug-in exit-status convention. *)
Definition severity_of_status (c : Z) : Severity :=
  if (c =? 0)%Z then OK else if (c =? 1)%Z then WARNING
  else if (c =? 2)%Z then CRITICAL else UNKNOWN.

Definition severity (o : Outcome) : Severity := severity_of_status (exit_status o).

(** The provider delivers [budgets] in the mode [arg] selects. *)
Definition fetches (arg : option string) (p : Provider) (budgets : list Budget) : Prop :=
  match truthy arg with
  | Some n => exists b, describe_budget p n = inr b /\ budgets = [b]
  | None => describe_budgets p = inr budgets
  end.

(** ** Auxiliary definitions and test records *)

Definition within_spec (b : Budget) : bool := negb (overspent_spec b).

Definition perf_ready (b : Budget) : Prop :=
  BudgetName b <> None /\ missing_required b = false.

(** The exact value of a finite double. *)
Definition float_to_Q (x : pyfloat) : Q :=
  match x with
  | PFloat neg u => Qmake (signed_units neg u) (Z.to_pos (2 ^ 1074))
  | _ => 0%Q
  end.

(** The decimal amount a plain numeral [[-]digits[.digits]] denotes, exactly,
    without rounding to a double. *)
Definition decimal_amount (s : string) : option Q :=
  let '(ng, cs) :=
    match list_ascii_of_string s with
    | c :: cs => if Ascii.eqb c "-" then (true, cs) else (false, c :: cs)
    | [] => (false, [])
    end in
  match scan_mantissa cs false 0 0 0 with
  | Some (m, sc, []) => Some (Qmake (signed_units ng m) (Z.to_pos (10 ^ sc)))
  | _ => None
  end.

(** A string of ASCII characters only. *)
Definition ascii_string (s : string) : bool :=
  forallb (fun c => (nat_of_ascii c <? 128)%nat) (list_ascii_of_string s).

Definition usd (s : string) : Spend := mkSpend (Some s) (Some "USD").

(** The spec's budget [infra]: limit 100, actual 80, an optional forecast. *)
Definition infra_budget (forecast : option string) : Budget :=
  mkBudget (Some "infra") (Some (usd "100.0"))
    (Some (mkCalc (Some (usd "80.0")) (option_map usd forecast))).

(** A compliant budget with a forecast below its limit. *)
Definition dev_budget : Budget :=
  mkBudget (Some "dev") (Some (usd "50.0"))
    (Some (mkCalc (Some (usd "10.0")) (Some (usd "40.0")))).

(** A forecast that differs from the limit [100.0] only beyond double
    precision. *)
Definition tie_budget : Budget := infra_budget (Some "100.0000000000000001").

(** The double [100.0]. *)
Definition hundred : pyfloat := PFloat false (100 * 2 ^ 1074).

Definition all_budgets_provider (bs : list Budget) : Provider :=
  mkProvider (fun _ => inl (ClientError "An error occurred (NotFoundException)")) (inr bs).

(** A provider whose credentials lack the budgets permission. *)
Definition denied_provider : Provider :=
  mkProvider
    (fun _ => inl (ClientError "An error occurred (AccessDeniedException) when calling the DescribeBudget operation"))
    (inl (ClientError "An error occurred (AccessDeniedException) when calling the DescribeBudgets operation")).

Definition not_exit (e : exn) : Prop := forall c, e <> SystemExit c.

(** A computation that prints nothing and never calls [sys.exit]. *)
Definition quiet {A} (m : M A) : Prop :=
  forall out, (exists a, m out = (out, inr a)) \/
              (exists e, m out = (out, inl e) /\ not_exit e).

Create HintDb quiet.

(** A cost budget whose actual spend is missing, though it has a forecast. *)
Definition no_actual_budget : Budget :=
  mkBudget (Some "infra") (Some (usd "100.0"))
    (Some (mkCalc None (Some (usd "120.0")))).

(** [budget['CalculatedSpend']['ForecastedSpend']] replaced. *)
Definition set_forecast (fc : option Spend) (b : Budget) : Budget :=
  mkBudget (BudgetName b) (BudgetLimit b)
    (option_map (fun cs => mkCalc (ActualSpend cs) fc) (CalculatedSpend b)).

(** [budget['CalculatedSpend']['ActualSpend']] replaced. *)
Definition set_actual (acs : option Spend) (b : Budget) : Budget :=
  mkBudget (BudgetName b) (BudgetLimit b)
    (option_map (fun cs => mkCalc acs (ForecastedSpend cs)) (CalculatedSpend b)).

(** The botocore calls raise botocore exceptions, never [SystemExit]. *)
Definition provider_raises_no_exit (p : Provider) : Prop :=
  (forall (n : string) (e : exn), describe_budget p n = inl e -> not_exit e) /\
  (forall e : exn, describe_budgets p = inl e -> not_exit e).

(** ** Lemmas on the embedding *)

Ltac destr_all :=
  repeat match goal with
         | |- context [match ?x with _ => _ end] =>
             lazymatch x with
             | context [match _ with _ => _ end] => fail
             | _ => destruct x eqn:?
             end
         | H : context [match ?x with _ => _ end] |- _ =>
             lazymatch x with
             | context [match _ with _ => _ end] => fail
             | _ => destruct x eqn:?
             end
         end.

Lemma overspend_body_wf (b : Budget) (res : Buckets) (out : list string) :
  wf_budget b = true ->
  overspend_body b res out = (out, inr (append_bucket (overspent_spec b) (descriptor b) res)).
Proof.
  unfold wf_budget, overspent_spec, comparison_amount, descriptor, limit_of, actual_of,
    limit_str, actual_str, actual_unit, forecast_str, opt_bind.
  destruct b as [[name|] [[[la|] lu]|] [[[[[aa|] au]|] fs]|]]; simpl; try discriminate;
    destr_all; try discriminate; intros _;
    unfold overspend_body, bind, try_except, getk, py_float, ret, raise; simpl;
    repeat match goal with H : _ = _ |- _ => rewrite H; simpl end; try reflexivity;
    try congruence.
Qed.

Lemma overspend_loop_wf (bs : list Budget) : forall (res : Buckets) (out : list string),
  Forall (fun b => wf_budget b = true) bs ->
  overspend_loop bs res out =
    (out, inr (mkBuckets (bucket_true res ++ map descriptor (filter overspent_spec bs))
                         (bucket_false res ++ map descriptor (filter within_spec bs)))).
Proof.
  induction bs as [|b bs IH]; intros res out Hwf.
  - destruct res; simpl; rewrite !app_nil_r; reflexivity.
  - inversion Hwf as [|? ? Hb Hbs]; subst.
    simpl. unfold bind. rewrite (overspend_body_wf b res out Hb), IH by exact Hbs.
    unfold within_spec, append_bucket.
    destruct (overspent_spec b); simpl; rewrite <- !app_assoc; reflexivity.
Qed.

Lemma get_overspend_wf (bs : list Budget) (out : list string) :
  Forall (fun b => wf_budget b = true) bs ->
  get_overspend bs out =
    (out, inr (mkBuckets (map descriptor (filter overspent_spec bs))
                         (map descriptor (filter within_spec bs)))).
Proof. intros H. unfold get_overspend. rewrite overspend_loop_wf by exact H. reflexivity. Qed.

Lemma wf_perf_ready (b : Budget) : wf_budget b = true -> perf_ready b.
Proof.
  unfold wf_budget, perf_ready, missing_required, limit_of, actual_of, opt_bind.
  intros H.
  destruct (BudgetName b); [|discriminate].
  destruct (limit_str b); [|discriminate].
  destruct (actual_str b); [|destr_all; discriminate].
  destruct (actual_unit b); [|destr_all; discriminate].
  split; [discriminate | reflexivity].
Qed.

Lemma perfdata_loop_ok (bs : list Budget) : forall (acc : list string) (out : list string),
  Forall perf_ready bs ->
  perfdata_loop bs acc out = (out, inr (acc ++ map record_token bs)%list).
Proof.
  induction bs as [|b bs IH]; intros acc out H.
  - simpl. rewrite app_nil_r. reflexivity.
  - inversion H as [|? ? [Hn Hm] Hbs]; subst.
    unfold missing_required, limit_str, actual_str, actual_unit, opt_bind in Hm.
    destruct b as [[name|] [[[la|] lu]|] [[[[[aa|] [au|]]|] fs]|]]; simpl in *;
      try discriminate; try congruence.
    unfold bind, getk, ret. simpl. rewrite IH by exact Hbs.
    rewrite <- app_assoc. reflexivity.
Qed.

Lemma get_perfdata_ok (bs : list Budget) (out : list string) :
  Forall perf_ready bs ->
  get_perfdata bs out = (out, inr ("| " ++ String.concat " " (map record_token bs))).
Proof. intros H. unfold get_perfdata, bind. rewrite perfdata_loop_ok by exact H. reflexivity. Qed.

Lemma Forall_wf_perf (bs : list Budget) :
  Forall (fun b => wf_budget b = true) bs -> Forall perf_ready bs.
Proof. intros H. eapply Forall_impl; [|exact H]. exact wf_perf_ready. Qed.

Lemma filter_nil_existsb {A} (f : A -> bool) (l : list A) :
  filter f l = [] <-> existsb f l = false.
Proof.
  induction l as [|a l IH]; simpl; [tauto|].
  destruct (f a); simpl; [split; discriminate | exact IH].
Qed.

(** Lines 108-116 on well-formed records. *)
Lemma report_wf (bs : list Budget) (out : list string) :
  Forall (fun b => wf_budget b = true) bs ->
  report bs out =
    if existsb overspent_spec bs then
      (app out ["Budget forecast exceeds limit: "
                ++ String.concat ", " (map descriptor (filter overspent_spec bs))
                ++ "| " ++ String.concat " " (map record_token bs)],
       inl (SystemExit STATE_CRIT))
    else
      (app out ["Budgets forecast within limit: "
                ++ String.concat ", " (map descriptor (filter within_spec bs))
                ++ "| " ++ String.concat " " (map record_token bs)],
       inl (SystemExit STATE_OK)).
Proof.
  intros H. unfold report, bind at 1.
  rewrite get_overspend_wf by exact H. unfold bind at 1.
  rewrite get_perfdata_ok by (apply Forall_wf_perf; exact H). simpl.
  destruct (existsb overspent_spec bs) eqn:E.
  - destruct (filter overspent_spec bs) eqn:F.
    + apply filter_nil_existsb in F. congruence.
    + reflexivity.
  - apply filter_nil_existsb in E. rewrite E. reflexivity.
Qed.

Lemma run_fetches (arg : option string) (p : Provider) (bs : list Budget) :
  fetches arg p bs -> run arg p = run_outcome (report bs).
Proof.
  unfold fetches, run, run_outcome, main.
  destruct (truthy arg) as [n|].
  - intros [b [Hb ->]]. unfold bind at 1, fetch_budget, try_except, lift.
    rewrite Hb. reflexivity.
  - intros Hb. unfold bind at 1, fetch_budgets, try_except, lift.
    rewrite Hb. reflexivity.
Qed.

Lemma get_overspend_single (b : Budget) (out : list string) :
  wf_budget b = true ->
  get_overspend [b] out =
    (out, inr (append_bucket (overspent_spec b) (descriptor b) empty_buckets)).
Proof.
  intros H. unfold get_overspend, overspend_loop, bind.
  rewrite overspend_body_wf by exact H. reflexivity.
Qed.

Lemma filter_partition_length {A} (f : A -> bool) (l : list A) :
  (length (filter f l) + length (filter (fun x => negb (f x)) l))%nat = length l.
Proof.
  induction l as [|a l IH]; simpl; [reflexivity|].
  destruct (f a); simpl; lia.
Qed.

Lemma float_gtb_Qlt (nc nl : bool) (uc ul : Z) :
  float_gtb (PFloat nc uc) (PFloat nl ul) = true <->
  (float_to_Q (PFloat nl ul) < float_to_Q (PFloat nc uc))%Q.
Proof.
  unfold float_gtb, float_to_Q, Qlt. cbn [Qnum Qden].
  assert (Hp : (0 < 2 ^ 1074)%Z) by (apply Z.pow_pos_nonneg; lia).
  rewrite Z2Pos.id by exact Hp.
  rewrite Z.ltb_lt.
  generalize dependent (2 ^ 1074)%Z. intros p Hp.
  split; intros H; [exact (proj1 (Z.mul_lt_mono_pos_r p _ _ Hp) H) | exact (proj2 (Z.mul_lt_mono_pos_r p _ _ Hp) H)].
Qed.

Lemma float_eqb_not_gtb (x y : pyfloat) : float_eqb x y = true -> float_gtb x y = false.
Proof.
  destruct x as [nx ux|nx|], y as [ny uy|ny|]; simpl; intros H; try discriminate.
  - apply Z.eqb_eq in H. rewrite H. apply Z.ltb_irrefl.
  - destruct nx, ny; simpl in *; congruence.
Qed.

(** ** C1: forecast-first classification *)

(** C1: for a well-formed record with a forecast, the record lands in the
    bucket given by [forecast > limit] (FORECAST basis), whatever its actual
    spend; without a forecast, in the bucket given by [actual > limit]
    (ACTUAL basis). *)
Theorem forecast_first_classification (b : Budget) (Hwf : wf_budget b = true) :
  (forall s, forecast_str b = Some s ->
     exists f l, parse_float s = Some f /\ limit_of b = Some l /\
       comparison_basis b = FORECAST /\
       get_overspend [b] [] = ([], inr (append_bucket (float_gtb f l) (descriptor b) empty_buckets)))
  /\ (forecast_str b = None ->
     exists a l, actual_of b = Some a /\ limit_of b = Some l /\
       comparison_basis b = ACTUAL /\
       get_overspend [b] [] = ([], inr (append_bucket (float_gtb a l) (descriptor b) empty_buckets))).
Proof.
  rewrite (get_overspend_single b [] Hwf).
  unfold comparison_basis, overspent_spec, comparison_amount.
  pose proof Hwf as W. unfold wf_budget in W. split.
  - intros s Hs. rewrite Hs in *.
    destruct (BudgetName b), (limit_of b) as [l|], (actual_of b), (actual_unit b);
      try discriminate.
    destruct (parse_float s) as [f|]; [|discriminate].
    exists f, l. auto.
  - intros Hs. rewrite Hs in *.
    destruct (BudgetName b), (limit_of b) as [l|], (actual_of b) as [a|], (actual_unit b);
      try discriminate.
    exists a, l. auto.
Qed.

Lemma forecast_first_classification_witness :
  wf_budget (infra_budget (Some "120.0")) = true /\
  ((forall s, forecast_str (infra_budget (Some "120.0")) = Some s ->
     exists f l, parse_float s = Some f /\ limit_of (infra_budget (Some "120.0")) = Some l /\
       comparison_basis (infra_budget (Some "120.0")) = FORECAST /\
       get_overspend [infra_budget (Some "120.0")] [] =
         ([], inr (append_bucket (float_gtb f l) (descriptor (infra_budget (Some "120.0"))) empty_buckets)))
  /\ (forecast_str (infra_budget (Some "120.0")) = None ->
     exists a l, actual_of (infra_budget (Some "120.0")) = Some a /\
       limit_of (infra_budget (Some "120.0")) = Some l /\
       comparison_basis (infra_budget (Some "120.0")) = ACTUAL /\
       get_overspend [infra_budget (Some "120.0")] [] =
         ([], inr (append_bucket (float_gtb a l) (descriptor (infra_budget (Some "120.0"))) empty_buckets)))).
Proof.
  split; [reflexivity|].
  apply forecast_first_classification. reflexivity.
Defined.

(** ** C2: aggregation and exit codes *)

(** C2: once the budgets are fetched (one named budget, or all of them, the
    empty set included) and are well-formed, the run prints one line and
    exits with 2 (CRITICAL) if at least one record is overspent, with 0 (OK)
    if none is. *)
Theorem aggregation_exit_codes (arg : option string) (p : Provider) (bs : list Budget)
  (Hf : fetches arg p bs) (Hwf : Forall (fun b => wf_budget b = true) bs) :
  exists line,
    run arg p = Exited [line] (if existsb overspent_spec bs then STATE_CRIT else STATE_OK) /\
    severity (run arg p) = (if existsb overspent_spec bs then CRITICAL else OK).
Proof.
  rewrite (run_fetches arg p bs Hf). unfold run_outcome.
  rewrite (report_wf bs [] Hwf).
  destruct (existsb overspent_spec bs); eexists; split; reflexivity.
Qed.

Lemma aggregation_exit_codes_witness :
  fetches None (all_budgets_provider [infra_budget (Some "120.0"); dev_budget])
    [infra_budget (Some "120.0"); dev_budget] /\
  Forall (fun b => wf_budget b = true) [infra_budget (Some "120.0"); dev_budget] /\
  exists line,
    run None (all_budgets_provider [infra_budget (Some "120.0"); dev_budget]) =
      Exited [line] (if existsb overspent_spec [infra_budget (Some "120.0"); dev_budget]
                     then STATE_CRIT else STATE_OK) /\
    severity (run None (all_budgets_provider [infra_budget (Some "120.0"); dev_budget])) =
      (if existsb overspent_spec [infra_budget (Some "120.0"); dev_budget] then CRITICAL else OK).
Proof.
  split; [reflexivity|]. split; [repeat constructor|].
  apply aggregation_exit_codes; [reflexivity | repeat constructor].
Defined.

(** ** C3: strict inequality *)

(** C3 (the claim fails on decimal amounts): as a decimal amount the
    forecast [100.0000000000000001] is strictly greater than the limit
    [100.0], but both strings give the double [100.0] and the record is put
    in the within-limit bucket. *)
Lemma strict_overspend_decimal_counterexample :
  forecast_str tie_budget = Some "100.0000000000000001" /\
  limit_str tie_budget = Some "100.0" /\
  (exists c l, decimal_amount "100.0000000000000001" = Some c /\
               decimal_amount "100.0" = Some l /\ (l < c)%Q) /\
  get_overspend [tie_budget] [] = ([], inr (mkBuckets [] ["infra(fcst:100.00;limit:100.00)"])).
Proof.
  split; [reflexivity|]. split; [reflexivity|]. split.
  - do 2 eexists. split; [reflexivity|]. split; [reflexivity|].
    vm_compute. reflexivity.
  - vm_compute. reflexivity.
Qed.

(** C3 (amended): the amounts compared are the doubles [float()] returns. A
    well-formed record is put in the overspent bucket exactly when its
    comparison amount is greater than its limit under Python's [>] on
    doubles (for finite doubles: exactly when its exact binary value is
    strictly greater); a comparison amount equal to the limit under Python's
    [==] puts it in the within-limit bucket. *)
Theorem strict_overspend_double (b : Budget) (c l : pyfloat) (Hwf : wf_budget b = true)
  (Hc : comparison_amount b = Some c) (Hl : limit_of b = Some l) :
  exists r, get_overspend [b] [] = ([], inr r) /\
    (bucket_true r <> [] <-> float_gtb c l = true) /\
    (forall nc uc nl ul, c = PFloat nc uc -> l = PFloat nl ul ->
       (bucket_true r <> [] <-> (float_to_Q l < float_to_Q c)%Q)) /\
    (float_eqb c l = true -> bucket_true r = [] /\ bucket_false r = [descriptor b]).
Proof.
  rewrite (get_overspend_single b [] Hwf).
  eexists; split; [reflexivity|].
  unfold overspent_spec. rewrite Hc, Hl.
  destruct (float_gtb c l) eqn:E; simpl.
  - split; [split; [reflexivity | intros _; discriminate]|]. split.
    + intros nc uc nl ul -> ->. rewrite <- float_gtb_Qlt, E.
      split; [reflexivity | intros _; discriminate].
    + intros Heq. rewrite (float_eqb_not_gtb c l Heq) in E. discriminate.
  - split; [split; [intros H; exfalso; apply H; reflexivity | discriminate]|]. split.
    + intros nc uc nl ul -> ->. rewrite <- float_gtb_Qlt, E.
      split; [intros H; exfalso; apply H; reflexivity | discriminate].
    + intros _. split; reflexivity.
Qed.

Lemma strict_overspend_double_witness :
  wf_budget tie_budget = true /\
  comparison_amount tie_budget = Some hundred /\
  limit_of tie_budget = Some hundred /\
  exists r, get_overspend [tie_budget] [] = ([], inr r) /\
    (bucket_true r <> [] <-> float_gtb hundred hundred = true) /\
    (forall nc uc nl ul, hundred = PFloat nc uc -> hundred = PFloat nl ul ->
       (bucket_true r <> [] <-> (float_to_Q hundred < float_to_Q hundred)%Q)) /\
    (float_eqb hundred hundred = true ->
       bucket_true r = [] /\ bucket_false r = [descriptor tie_budget]).
Proof.
  assert (Hc : comparison_amount tie_budget = Some hundred) by (vm_compute; reflexivity).
  assert (Hl : limit_of tie_budget = Some hundred) by (vm_compute; reflexivity).
  split; [vm_compute; reflexivity|]. split; [exact Hc|]. split; [exact Hl|].
  apply strict_overspend_double; [vm_compute; reflexivity | exact Hc | exact Hl].
Defined.

(** ** C4: descriptor rendering *)

(** C4 (what the code does): the forecast branch renders
    [infra(fcst:120.00;limit:100.00)], but the actual-spend branch appends
    the unformatted template of line 76, so the spec's Scenario B record
    yields [{name}(act:{actual:.2f};limit:{limit:.2f})], not
    [infra(act:80.00;limit:100.00)]. *)
Theorem descriptor_act_template :
  get_overspend [infra_budget (Some "120.0")] [] =
    ([], inr (mkBuckets ["infra(fcst:120.00;limit:100.00)"] [])) /\
  get_overspend [infra_budget None] [] =
    ([], inr (mkBuckets [] ["{name}(act:{actual:.2f};limit:{limit:.2f})"])) /\
  run None (all_budgets_provider [infra_budget None]) =
    Exited ["Budgets forecast within limit: {name}(act:{actual:.2f};limit:{limit:.2f})| 'infra'=80.0USD;100.0;100.0"] STATE_OK.
Proof. split; [|split]; vm_compute; reflexivity. Qed.

(** ** C5: provider failures *)

(** C5 (what the code does): in named-budget mode an authorization failure
    ends the run with UNKNOWN and exit code 3; in all-budgets mode the same
    failure, a [ClientError], is not caught by [fetch_budgets]: the run ends
    in an uncaught exception, printing nothing, with exit status 1. *)
Theorem client_error_all_budgets_uncaught :
  run (Some "infra") denied_provider =
    Exited ["UNKNOWN - An error occurred (AccessDeniedException) when calling the DescribeBudget operation"]
      STATE_UNKNOWN /\
  run None denied_provider =
    Uncaught [] (ClientError "An error occurred (AccessDeniedException) when calling the DescribeBudgets operation") /\
  exit_status (run None denied_provider) = 1%Z.
Proof. split; [|split]; vm_compute; reflexivity. Qed.

(** ** C6: malformed records *)

Lemma quiet_ret {A} (a : A) : quiet (ret a).
Proof. intros out. left. exists a. reflexivity. Qed.

Lemma quiet_raise {A} (e : exn) : not_exit e -> quiet (A := A) (raise e).
Proof. intros H out. right. exists e. split; [reflexivity | exact H]. Qed.

Lemma not_exit_KeyError : not_exit KeyError.
Proof. intros c; discriminate. Qed.

Lemma not_exit_ValueError : not_exit ValueError.
Proof. intros c; discriminate. Qed.

Lemma quiet_getk {A} (o : option A) : quiet (getk o).
Proof.
  destruct o; simpl; [apply quiet_ret | apply quiet_raise, not_exit_KeyError].
Qed.

Lemma quiet_py_float (s : string) : quiet (py_float s).
Proof.
  unfold py_float. destruct (parse_float s);
    [apply quiet_ret | apply quiet_raise, not_exit_ValueError].
Qed.

Lemma quiet_bind {A B} (m : M A) (k : A -> M B) :
  quiet m -> (forall a, quiet (k a)) -> quiet (bind m k).
Proof.
  intros Hm Hk out. unfold bind.
  destruct (Hm out) as [[a Ha]|[e [He Hne]]]; rewrite ?Ha, ?He.
  - apply Hk.
  - right. exists e. auto.
Qed.

Lemma quiet_try_keyerror {A} (body handler : M A) :
  quiet body -> quiet handler ->
  quiet (try_except body (fun e => match e with KeyError => Some handler | _ => None end)).
Proof.
  intros Hb Hh out. unfold try_except.
  destruct (Hb out) as [[a Ha]|[e [He Hne]]]; rewrite ?Ha, ?He.
  - left. eauto.
  - destruct e; eauto.
Qed.

#[local] Hint Resolve quiet_ret quiet_getk quiet_py_float quiet_bind quiet_try_keyerror : quiet.

Lemma quiet_overspend_loop (bs : list Budget) : forall res, quiet (overspend_loop bs res).
Proof.
  induction bs as [|b bs IH]; intros res; simpl.
  - apply quiet_ret.
  - apply quiet_bind; [|exact IH].
    unfold overspend_body.
    repeat (apply quiet_bind; [auto with quiet | intros ?]).
    apply quiet_try_keyerror;
      repeat (apply quiet_bind; [auto with quiet | intros ?]); apply quiet_ret.
Qed.

Lemma perfdata_loop_missing (bs : list Budget) : forall acc out,
  Exists (fun b => missing_required b = true) bs ->
  exists e, perfdata_loop bs acc out = (out, inl e) /\ not_exit e.
Proof.
  induction bs as [|b bs IH]; intros acc out Hex; inversion Hex as [? ? Hb|? ? Hbs]; subst.
  - unfold missing_required, limit_str, actual_str, actual_unit, opt_bind in Hb.
    destruct b as [[name|] [[[la|] lu]|] [[[[[aa|] [au|]]|] fs]|]]; simpl in *;
      try discriminate; eexists; (split; [reflexivity | apply not_exit_KeyError]).
  - destruct b as [[name|] [[[la|] lu]|] [[[[[aa|] [au|]]|] fs]|]]; simpl;
      try (eexists; (split; [reflexivity | apply not_exit_KeyError])).
    apply IH; exact Hbs.
Qed.

Lemma report_missing (bs : list Budget) (out : list string) :
  Exists (fun b => missing_required b = true) bs ->
  exists e, report bs out = (out, inl e) /\ not_exit e.
Proof.
  intros Hex. unfold report, get_overspend, bind at 1.
  destruct (quiet_overspend_loop bs empty_buckets out) as [[r Hr]|[e [He Hne]]];
    rewrite ?Hr, ?He.
  - unfold get_perfdata, bind at 1 2.
    destruct (perfdata_loop_missing bs [] out Hex) as [e [He Hne]].
    rewrite He. eauto.
  - eauto.
Qed.

(** C6 (the claim fails): a record without its actual spend does not end the
    run with UNKNOWN (exit code 3): the run ends in an uncaught [KeyError]
    with exit status 1. *)
Lemma malformed_not_unknown :
  run None (all_budgets_provider [no_actual_budget]) = Uncaught [] KeyError /\
  exit_status (run None (all_budgets_provider [no_actual_budget])) <> STATE_UNKNOWN.
Proof. split; vm_compute; [reflexivity | discriminate]. Qed.

(** C6 (amended): if a fetched record lacks its limit amount or its actual
    spend (amount or unit), the run prints nothing and ends in an uncaught
    exception (exit status 1): the record is never skipped and no OK or
    CRITICAL verdict is reported. *)
Theorem malformed_record_aborts (arg : option string) (p : Provider) (bs : list Budget)
  (Hf : fetches arg p bs) (Hex : Exists (fun b => missing_required b = true) bs) :
  exists e, run arg p = Uncaught [] e /\ not_exit e /\ exit_status (run arg p) = 1%Z.
Proof.
  rewrite (run_fetches arg p bs Hf). unfold run_outcome.
  destruct (report_missing bs [] Hex) as [e [He Hne]]. rewrite He.
  destruct e as [| | msg | msg | c];
    [ | | | | exfalso; exact (Hne c eq_refl)];
    eexists; (split; [reflexivity | split; [exact Hne | reflexivity]]).
Qed.

Lemma malformed_record_aborts_witness :
  fetches None (all_budgets_provider [dev_budget; no_actual_budget]) [dev_budget; no_actual_budget] /\
  Exists (fun b => missing_required b = true) [dev_budget; no_actual_budget] /\
  exists e, run None (all_budgets_provider [dev_budget; no_actual_budget]) = Uncaught [] e /\
    not_exit e /\ exit_status (run None (all_budgets_provider [dev_budget; no_actual_budget])) = 1%Z.
Proof.
  split; [reflexivity|]. split; [right; left; reflexivity|].
  apply (malformed_record_aborts None _ [dev_budget; no_actual_budget]);
    [reflexivity | right; left; reflexivity].
Defined.

(** ** C7: performance data *)

Lemma str_app_assoc (s1 s2 s3 : string) : (s1 ++ s2) ++ s3 = s1 ++ (s2 ++ s3).
Proof. induction s1 as [|c s1 IH]; simpl; [reflexivity | rewrite IH; reflexivity]. Qed.

Lemma perfdata_loop_set_forecast (fc : option Spend) (bs : list Budget) :
  forall acc out, perfdata_loop (map (set_forecast fc) bs) acc out = perfdata_loop bs acc out.
Proof.
  induction bs as [|b bs IH]; intros acc out; [reflexivity|].
  destruct b as [name lim [[acs fs]|]]; simpl; [|reflexivity].
  unfold bind, getk. destruct name, acs as [[a u]|]; simpl; try reflexivity.
  destruct a; simpl; try reflexivity. destruct u, lim as [[l lu]|]; simpl; try reflexivity.
  destruct l; simpl; try reflexivity. apply IH.
Qed.

(** C7: for well-formed records, each metric token is
    ['name'=<actual amount><unit>;<limit>;<limit>], whatever the forecast
    (which the perfdata never reads), and the printed line is the summary
    text followed by ["| "] and the space-joined tokens of all records. *)
Theorem perfdata_rendering (bs : list Budget) (Hwf : Forall (fun b => wf_budget b = true) bs) :
  get_perfdata bs [] = ([], inr ("| " ++ String.concat " "
     (map (fun b => "'" ++ default_str (BudgetName b) ++ "'=" ++ default_str (actual_str b)
                    ++ default_str (actual_unit b) ++ ";" ++ default_str (limit_str b)
                    ++ ";" ++ default_str (limit_str b)) bs))) /\
  (forall fc, get_perfdata (map (set_forecast fc) bs) [] = get_perfdata bs []) /\
  exists summary code,
    run_outcome (report bs) =
      Exited [summary ++ "| " ++ String.concat " " (map record_token bs)] code.
Proof.
  split; [|split].
  - rewrite get_perfdata_ok by (apply Forall_wf_perf; exact Hwf). reflexivity.
  - intros fc. unfold get_perfdata, bind. rewrite perfdata_loop_set_forecast. reflexivity.
  - unfold run_outcome. rewrite (report_wf bs [] Hwf).
    destruct (existsb overspent_spec bs);
      [exists ("Budget forecast exceeds limit: "
               ++ String.concat ", " (map descriptor (filter overspent_spec bs)))
      |exists ("Budgets forecast within limit: "
               ++ String.concat ", " (map descriptor (filter within_spec bs)))];
      eexists; rewrite !str_app_assoc; reflexivity.
Qed.

Lemma perfdata_rendering_witness :
  Forall (fun b => wf_budget b = true) [infra_budget (Some "120.0"); dev_budget] /\
  (get_perfdata [infra_budget (Some "120.0"); dev_budget] [] = ([], inr ("| " ++ String.concat " "
     (map (fun b => "'" ++ default_str (BudgetName b) ++ "'=" ++ default_str (actual_str b)
                    ++ default_str (actual_unit b) ++ ";" ++ default_str (limit_str b)
                    ++ ";" ++ default_str (limit_str b)) [infra_budget (Some "120.0"); dev_budget]))) /\
  (forall fc, get_perfdata (map (set_forecast fc) [infra_budget (Some "120.0"); dev_budget]) [] =
              get_perfdata [infra_budget (Some "120.0"); dev_budget] []) /\
  exists summary code,
    run_outcome (report [infra_budget (Some "120.0"); dev_budget]) =
      Exited [summary ++ "| " ++ String.concat " "
                (map record_token [infra_budget (Some "120.0"); dev_budget])] code).
Proof.
  split; [repeat constructor|].
  apply perfdata_rendering. repeat constructor.
Defined.

(** ** C8: partition and coverage of the output line *)

(** C8: on well-formed records, [get_overspend] splits the descriptors into
    the overspent and the within-limit records, each in input order; when
    one record at least is overspent the printed line lists the overspent
    descriptors only, followed by the perfdata tokens of every record. *)
Theorem partition_and_coverage (bs : list Budget) (Hwf : Forall (fun b => wf_budget b = true) bs) :
  get_overspend bs [] =
    ([], inr (mkBuckets (map descriptor (filter overspent_spec bs))
                        (map descriptor (filter within_spec bs)))) /\
  (existsb overspent_spec bs = true ->
   run_outcome (report bs) =
     Exited ["Budget forecast exceeds limit: "
             ++ String.concat ", " (map descriptor (filter overspent_spec bs))
             ++ "| " ++ String.concat " " (map record_token bs)] STATE_CRIT).
Proof.
  split.
  - exact (get_overspend_wf bs [] Hwf).
  - intros E. unfold run_outcome. rewrite (report_wf bs [] Hwf), E. reflexivity.
Qed.

Lemma partition_and_coverage_witness :
  Forall (fun b => wf_budget b = true) [infra_budget (Some "120.0"); dev_budget] /\
  get_overspend [infra_budget (Some "120.0"); dev_budget] [] =
    ([], inr (mkBuckets (map descriptor (filter overspent_spec [infra_budget (Some "120.0"); dev_budget]))
                        (map descriptor (filter within_spec [infra_budget (Some "120.0"); dev_budget])))) /\
  (existsb overspent_spec [infra_budget (Some "120.0"); dev_budget] = true ->
   run_outcome (report [infra_budget (Some "120.0"); dev_budget]) =
     Exited ["Budget forecast exceeds limit: "
             ++ String.concat ", " (map descriptor (filter overspent_spec [infra_budget (Some "120.0"); dev_budget]))
             ++ "| " ++ String.concat " " (map record_token [infra_budget (Some "120.0"); dev_budget])] STATE_CRIT).
Proof.
  split; [repeat constructor|].
  apply partition_and_coverage. repeat constructor.
Defined.

(** Scenario E, evaluated: the summary names [infra] only, the perfdata both. *)
Example scenario_E :
  run None (all_budgets_provider [infra_budget (Some "120.0"); dev_budget]) =
    Exited ["Budget forecast exceeds limit: infra(fcst:120.00;limit:100.00)| 'infra'=80.0USD;100.0;100.0 'dev'=10.0USD;50.0;50.0"]
      STATE_CRIT.
Proof. vm_compute. reflexivity. Qed.

(** ** C9: classification totality *)

(** C9: on well-formed records, [get_overspend] succeeds and the two buckets
    together hold exactly as many descriptors as there are records. *)
Theorem classification_total (bs : list Budget) (Hwf : Forall (fun b => wf_budget b = true) bs) :
  exists r, get_overspend bs [] = ([], inr r) /\
    (length (bucket_true r) + length (bucket_false r))%nat = length bs.
Proof.
  rewrite (get_overspend_wf bs [] Hwf). eexists; split; [reflexivity|].
  simpl. rewrite !length_map. apply filter_partition_length.
Qed.

Lemma classification_total_witness :
  Forall (fun b => wf_budget b = true) [infra_budget (Some "120.0"); dev_budget; infra_budget None] /\
  exists r, get_overspend [infra_budget (Some "120.0"); dev_budget; infra_budget None] [] = ([], inr r) /\
    (length (bucket_true r) + length (bucket_false r))%nat =
      length [infra_budget (Some "120.0"); dev_budget; infra_budget None].
Proof.
  split; [repeat constructor|].
  apply classification_total. repeat constructor.
Defined.

(** ** C10: perfdata amounts are copied verbatim *)

(** C10: [get_perfdata] copies the name, the actual amount, its unit and the
    limit as the raw strings of the record, parsing none of them (any string
    is accepted); so the limit ["100.0"] reads [100.0] in the perfdata but
    [100.00] in the summary descriptor. *)
Theorem perfdata_verbatim :
  (forall (n l a u : string) (lu : option string) (fc : option Spend) (out : list string),
     get_perfdata [mkBudget (Some n) (Some (mkSpend (Some l) lu))
                     (Some (mkCalc (Some (mkSpend (Some a) (Some u))) fc))] out =
       (out, inr ("| '" ++ n ++ "'=" ++ a ++ u ++ ";" ++ l ++ ";" ++ l))) /\
  get_perfdata [infra_budget (Some "120.0")] [] = ([], inr "| 'infra'=80.0USD;100.0;100.0") /\
  get_overspend [infra_budget (Some "120.0")] [] =
    ([], inr (mkBuckets ["infra(fcst:120.00;limit:100.00)"] [])).
Proof.
  split; [|split; vm_compute; reflexivity].
  intros. reflexivity.
Qed.

(** * Further properties of the script *)

(** ** [fetch_budget] and [fetch_budgets] *)

(** In named-budget mode, a [BotoCoreError] or a [ClientError] from the
    provider makes the run print [UNKNOWN - <message>] and exit with 3. *)
Theorem named_provider_error_unknown (n err : string) (p : Provider)
  (Hn : n <> "")
  (He : describe_budget p n = inl (BotoCoreError err) \/
        describe_budget p n = inl (ClientError err)) :
  run (Some n) p = Exited ["UNKNOWN - " ++ err] STATE_UNKNOWN.
Proof.
  assert (Ht : truthy (Some n) = Some n) by (destruct n; [congruence | reflexivity]).
  unfold run, run_outcome, main. rewrite Ht.
  unfold bind at 1, fetch_budget, try_except, lift.
  destruct He as [He|He]; rewrite He; reflexivity.
Qed.

Lemma named_provider_error_unknown_witness :
  run (Some "infra") denied_provider =
    Exited ["UNKNOWN - An error occurred (AccessDeniedException) when calling the DescribeBudget operation"]
      STATE_UNKNOWN.
Proof.
  apply named_provider_error_unknown; [discriminate | right; reflexivity].
Defined.

(** In all-budgets mode, a [BotoCoreError] from the provider (an unreachable
    endpoint, missing credentials) makes the run print
    [UNKNOWN - <message>] and exit with 3. *)
Theorem all_budgets_botocore_error_unknown (arg : option string) (err : string) (p : Provider)
  (Ha : truthy arg = None) (He : describe_budgets p = inl (BotoCoreError err)) :
  run arg p = Exited ["UNKNOWN - " ++ err] STATE_UNKNOWN.
Proof.
  unfold run, run_outcome, main. rewrite Ha.
  unfold bind at 1, fetch_budgets, try_except, lift. rewrite He. reflexivity.
Qed.

Lemma all_budgets_botocore_error_unknown_witness :
  run None (mkProvider (fun _ => inr dev_budget)
              (inl (BotoCoreError "Could not connect to the endpoint URL"))) =
    Exited ["UNKNOWN - Could not connect to the endpoint URL"] STATE_UNKNOWN.
Proof. apply all_budgets_botocore_error_unknown; reflexivity. Defined.

(** ** [get_perfdata]: its outcome *)

Lemma perf_ready_full (name la aa au : string) (lu : option string) (fs : option Spend) :
  perf_ready (mkBudget (Some name) (Some (mkSpend (Some la) lu))
                (Some (mkCalc (Some (mkSpend (Some aa) (Some au))) fs))).
Proof. split; [discriminate | reflexivity]. Qed.

Lemma perfdata_loop_outcome (bs : list Budget) : forall acc out,
  (Forall perf_ready bs /\
   perfdata_loop bs acc out = (out, inr (acc ++ map record_token bs)%list)) \/
  (Exists (fun b => ~ perf_ready b) bs /\ perfdata_loop bs acc out = (out, inl KeyError)).
Proof.
  induction bs as [|b bs IH]; intros acc out.
  - left. split; [constructor | simpl; rewrite app_nil_r; reflexivity].
  - destruct b as [[name|] [[[la|] lu]|] [[[[[aa|] [au|]]|] fs]|]];
      try (right; split;
           [left; unfold perf_ready, missing_required, limit_str, actual_str,
                   actual_unit, opt_bind; simpl; intros [H1 H2]; congruence
           | reflexivity]).
    destruct (IH (acc ++ [record_token (mkBudget (Some name) (Some (mkSpend (Some la) lu))
                  (Some (mkCalc (Some (mkSpend (Some aa) (Some au))) fs)))])%list out)
      as [[Hf He]|[Hx He]].
    + left. split; [constructor; [apply perf_ready_full | exact Hf]|].
      simpl. unfold bind, getk, ret. simpl.
      unfold record_token, metric_token in *. simpl in *. rewrite He.
      rewrite <- app_assoc. reflexivity.
    + right. split; [right; exact Hx|]. simpl. unfold bind, getk, ret. simpl.
      unfold record_token, metric_token in *. simpl in *. exact He.
Qed.

(** [get_perfdata] prints nothing and either returns the perfdata block,
    when every record has its name, actual amount, unit and limit amount
    (the amounts need not be numbers, the forecast is not read), or raises
    [KeyError] when one record lacks one of them. *)
Theorem get_perfdata_outcome (bs : list Budget) (out : list string) :
  (Forall perf_ready bs /\
   get_perfdata bs out = (out, inr ("| " ++ String.concat " " (map record_token bs)))) \/
  (Exists (fun b => ~ perf_ready b) bs /\ get_perfdata bs out = (out, inl KeyError)).
Proof.
  unfold get_perfdata, bind.
  destruct (perfdata_loop_outcome bs [] out) as [[Hf He]|[Hx He]]; rewrite He.
  - left. split; [exact Hf | reflexivity].
  - right. split; [exact Hx | reflexivity].
Qed.

(** ** [get_overspend]: the order of its reads and its fallback *)

(** The name and the limit are read first (lines 69-70), outside the
    [try]: a record without its name or its limit amount makes
    [get_overspend] raise [KeyError], and a limit that [float()] rejects
    makes it raise [ValueError], whatever its spend fields and the records
    after it. The limit strings covered are those of ASCII characters, the
    domain of [parse_float]. *)
Theorem overspend_reads_limit_first (b : Budget) (bs : list Budget) (out : list string) :
  ((BudgetName b = None \/ limit_str b = None) ->
   get_overspend (b :: bs) out = (out, inl KeyError)) /\
  (forall s, ascii_string s = true -> BudgetName b <> None -> limit_str b = Some s ->
   parse_float s = None ->
   get_overspend (b :: bs) out = (out, inl ValueError)).
Proof.
  unfold limit_str, opt_bind.
  destruct b as [[name|] [[[la|] lu]|] cs]; simpl; split;
    try (intros [H|H]; discriminate); try (intros; congruence);
    try (intros _; reflexivity).
  intros s _ _ Hs Hp. injection Hs as <-.
  unfold get_overspend, overspend_loop, overspend_body, bind, getk, py_float, ret, raise.
  simpl. rewrite Hp. reflexivity.
Qed.

(** Only a [KeyError] sends the loop body to the actual spend (line 74): a
    forecast amount that [float()] rejects makes [get_overspend] raise
    [ValueError] even when the actual spend is a valid number. The forecast
    strings covered are those of ASCII characters, the domain of
    [parse_float]. *)
Theorem forecast_not_number_raises (b : Budget) (s : string) (bs : list Budget)
  (out : list string) (Hn : BudgetName b <> None) (Hl : limit_of b <> None)
  (Hs : forecast_str b = Some s) (Ha : ascii_string s = true) (Hp : parse_float s = None) :
  get_overspend (b :: bs) out = (out, inl ValueError).
Proof.
  unfold limit_of, limit_str, forecast_str, opt_bind in *.
  destruct b as [[name|] [[[la|] lu]|] [[acs [[[fa|] fu]|]]|]]; simpl in *;
    try congruence.
  injection Hs as ->.
  destruct (parse_float la) as [l|] eqn:El; [|congruence].
  unfold get_overspend, overspend_loop, overspend_body, bind, getk, py_float,
    try_except, ret, raise.
  simpl. rewrite El, Hp. reflexivity.
Qed.

Lemma forecast_not_number_raises_witness :
  get_overspend [infra_budget (Some "n/a")] [] = ([], inl ValueError) /\
  actual_of (infra_budget (Some "n/a")) <> None.
Proof.
  split; [|discriminate].
  apply forecast_not_number_raises with (s := "n/a");
    [discriminate | discriminate | reflexivity | reflexivity | reflexivity].
Defined.

(** A [ForecastedSpend] dict without an [Amount] raises [KeyError] inside
    the [try]: the record is classified on its actual spend, exactly as if it
    had no forecast. *)
Theorem forecast_without_amount_falls_back (name : option string) (lim : option Spend)
  (acs : option Spend) (fu : option string) (res : Buckets) (out : list string) :
  overspend_body (mkBudget name lim (Some (mkCalc acs (Some (mkSpend None fu))))) res out =
  overspend_body (mkBudget name lim (Some (mkCalc acs None))) res out.
Proof. reflexivity. Qed.

(** When every record has a numeric forecast, [get_overspend] never reads the
    actual spend: replacing (or removing) it changes nothing. *)
Theorem forecast_records_ignore_actual (acs : option Spend) (bs : list Budget)
  (out : list string)
  (Hf : Forall (fun b => exists s f, forecast_str b = Some s /\ parse_float s = Some f) bs) :
  get_overspend (map (set_actual acs) bs) out = get_overspend bs out.
Proof.
  unfold get_overspend. generalize empty_buckets. revert out.
  induction Hf as [|b bs Hb Hbs IH]; intros out res; [reflexivity|].
  destruct Hb as [s [f [Hs Hp]]].
  simpl.
  assert (E : overspend_body (set_actual acs b) res out = overspend_body b res out).
  { unfold forecast_str, opt_bind in Hs.
    destruct b as [name lim [[a [[[fa|] fu]|]]|]]; simpl in Hs; try discriminate.
    injection Hs as ->.
    unfold set_actual, overspend_body, bind, try_except, getk, py_float, ret, raise.
    simpl. rewrite Hp. reflexivity. }
  unfold bind. rewrite E.
  destruct (overspend_body b res out) as [o [e|r]]; [reflexivity | apply IH].
Qed.

Lemma forecast_records_ignore_actual_witness :
  get_overspend (map (set_actual None) [infra_budget (Some "120.0"); dev_budget]) [] =
    get_overspend [infra_budget (Some "120.0"); dev_budget] [].
Proof.
  apply forecast_records_ignore_actual.
  repeat constructor; do 2 eexists; split; reflexivity.
Defined.

(** ** The process outcome *)

Lemma report_shape (bs : list Budget) (out : list string) :
  (exists line c, report bs out = (app out [line], inl (SystemExit c)) /\
                  (c = STATE_OK \/ c = STATE_CRIT)) \/
  (exists e, report bs out = (out, inl e) /\ not_exit e).
Proof.
  unfold report, get_overspend, get_perfdata, bind.
  destruct (quiet_overspend_loop bs empty_buckets out) as [[r Hr]|[e [He Hne]]];
    [rewrite Hr | rewrite He; right; eauto].
  destruct (perfdata_loop_outcome bs [] out) as [[_ Hp]|[_ Hp]]; rewrite Hp;
    [|right; exists KeyError; split; [reflexivity | apply not_exit_KeyError]].
  left. unfold ret, print, sys_exit, raise.
  destruct (bucket_true r); do 2 eexists; (split; [reflexivity | auto]).
Qed.

(** Whatever the provider returns (as long as it raises botocore
    exceptions, not [SystemExit]), the run either prints exactly one line and
    exits with 0, 2 or 3 -- never with [STATE_WARN] -- or prints nothing and
    ends in an uncaught exception. *)
Theorem run_outcome_shape (arg : option string) (p : Provider)
  (Hp : provider_raises_no_exit p) :
  match run arg p with
  | Exited out c => length out = 1%nat /\ (c = STATE_OK \/ c = STATE_CRIT \/ c = STATE_UNKNOWN)
  | Uncaught out e => out = [] /\ not_exit e
  end.
Proof.
  destruct Hp as [Hone Hall].
  assert (Hrep : forall bs, match run_outcome (report bs) with
    | Exited out c => length out = 1%nat /\ (c = STATE_OK \/ c = STATE_CRIT \/ c = STATE_UNKNOWN)
    | Uncaught out e => out = [] /\ not_exit e
    end).
  { intros bs. unfold run_outcome.
    destruct (report_shape bs []) as [[line [c [Hr Hc]]]|[e [Hr Hne]]]; rewrite Hr.
    - simpl. split; [reflexivity | tauto].
    - destruct e as [| | msg | msg | c]; try (split; [reflexivity | exact Hne]).
      exfalso. exact (Hne c eq_refl). }
  unfold run, run_outcome, main.
  destruct (truthy arg) as [n|].
  - unfold bind at 1, fetch_budget, try_except, lift.
    destruct (describe_budget p n) as [e|b] eqn:E.
    + destruct e as [| | msg | msg | c]; simpl;
        try (split; [reflexivity | right; right; reflexivity]);
        try (split; [reflexivity | exact (Hone _ _ E)]).
      exfalso. exact (Hone _ _ E c eq_refl).
    + exact (Hrep [b]).
  - unfold bind at 1, fetch_budgets, try_except, lift.
    destruct (describe_budgets p) as [e|bs] eqn:E.
    + destruct e as [| | msg | msg | c]; simpl;
        try (split; [reflexivity | right; right; reflexivity]);
        try (split; [reflexivity | exact (Hall _ eq_refl)]).
      exfalso. exact (Hall _ eq_refl c eq_refl).
    + exact (Hrep bs).
Qed.

Lemma run_outcome_shape_witness :
  provider_raises_no_exit denied_provider /\
  match run None denied_provider with
  | Exited out c => length out = 1%nat /\ (c = STATE_OK \/ c = STATE_CRIT \/ c = STATE_UNKNOWN)
  | Uncaught out e => out = [] /\ not_exit e
  end.
Proof.
  assert (H : provider_raises_no_exit denied_provider).
  { split; [intros n e E | intros e E]; simpl in E; injection E as <-; intros c; discriminate. }
  split; [exact H | exact (run_outcome_shape None denied_provider H)].
Defined.
